(** * MARC Record Viewer: format sniffing, decoding dispatch and rendering

    A shallow embedding of [marcview.py] (class [MarcViewer]) and the
    properties of its batch pipeline
    [load_marc_file -> is_marcxml / is_json / is_mnemonic -> decoder -> parse_record].

    Conventions.
    - [bytes] is Python's [bytes]: a list of [Byte.byte].
    - [str] is Python's [str]: a list of Unicode code points (as [N]).
    - A Python call that may raise returns a [result]; the exception
      carries its class and the text of [str(e)].
    - The widgets reached through [self] are a record that is threaded
      through [load_marc_file]; widget updates made before an exception
      is raised are kept, as in Python.
    - [pymarc] and the Python runtime are not part of the sources; the
      calls made into them are the fields of the class [Runtime]. *)

From Stdlib Require Import List String Ascii Strings.Byte NArith Bool Arith Lia.
Import ListNotations.

Set Implicit Arguments.
Local Open Scope list_scope.

(* ================================================================== *)
(** ** Python values: bytes, str, exceptions *)

Definition bytes := list byte.
Definition str := list N.

(** [b "..."] is the bytes literal [b'...']. *)
Definition b (s : string) : bytes := list_byte_of_string s.

(** [u "..."] is the str literal ['...'] (ASCII text only). *)
Definition u (s : string) : str := map Byte.to_N (list_byte_of_string s).

Definition LF : N := 10.
Definition SPACE : N := 32.
Definition bLF : byte := x0a.

(** Text given line by line; every line is terminated by a newline. *)
Definition unlines (ls : list string) : str :=
  List.concat (map (fun l => u l ++ [LF]) ls).

Fixpoint list_eqb {A} (eqb : A -> A -> bool) (x y : list A) : bool :=
  match x, y with
  | [], [] => true
  | a :: x', c :: y' => eqb a c && list_eqb eqb x' y'
  | _, _ => false
  end.

Definition str_eqb : str -> str -> bool := list_eqb N.eqb.
Definition bytes_eqb : bytes -> bytes -> bool := list_eqb Byte.eqb.

(** [x.startswith(prefix)] *)
Fixpoint startswith {A} (eqb : A -> A -> bool) (x prefix : list A) {struct prefix}
    : bool :=
  match prefix, x with
  | [], _ => true
  | p :: prefix', a :: x' => eqb a p && startswith eqb x' prefix'
  | _ :: _, [] => false
  end.

(** [sub in x] for a non-empty [sub]: some suffix of [x] starts with [sub]. *)
Fixpoint contains_sub {A} (eqb : A -> A -> bool) (sub x : list A) : bool :=
  match x with
  | [] => startswith eqb [] sub
  | _ :: x' => startswith eqb x sub || contains_sub eqb sub x'
  end.

Fixpoint dropwhile {A} (p : A -> bool) (x : list A) : list A :=
  match x with
  | [] => []
  | a :: x' => if p a then dropwhile p x' else x
  end.

(** [x.strip()] with [p] the whitespace test of the type. *)
Definition strip_with {A} (p : A -> bool) (x : list A) : list A :=
  rev (dropwhile p (rev (dropwhile p x))).

(** Whitespace of [bytes.strip()]: space, tab, newline, return, VT, FF. *)
Definition bytes_isspace (c : byte) : bool :=
  match c with
  | x20 | x09 | x0a | x0d | x0b | x0c => true
  | _ => false
  end.

(** Whitespace of [str.strip()]: the code points for which
    [str.isspace()] holds. *)
Definition str_isspace (c : N) : bool :=
  ((9 <=? c) && (c <=? 13) || (28 <=? c) && (c <=? 32)
   || (c =? 133) || (c =? 160) || (c =? 5760)
   || (8192 <=? c) && (c <=? 8202)
   || (c =? 8232) || (c =? 8233) || (c =? 8239) || (c =? 8287)
   || (c =? 12288))%N.

Definition bytes_strip : bytes -> bytes := strip_with bytes_isspace.
Definition str_strip : str -> str := strip_with str_isspace.

(** [sep.join(parts)] *)
Fixpoint join (sep : str) (parts : list str) : str :=
  match parts with
  | [] => []
  | [p] => p
  | p :: rest => p ++ sep ++ join sep rest
  end.

(** [s.split('\n\n')]: cut at every blank line, scanning left to right;
    [cur] holds the current piece in reverse.  The result is never empty. *)
Fixpoint split_blank_from (s : str) (cur : str) : list str :=
  match s with
  | [] => [rev cur]
  | c :: s' =>
      match s' with
      | d :: s'' =>
          if (c =? LF)%N && (d =? LF)%N
          then rev cur :: split_blank_from s'' []
          else split_blank_from s' (c :: cur)
      | [] => split_blank_from s' (c :: cur)
      end
  end.

Definition split_blank (s : str) : list str := split_blank_from s [].

(** [f"{s:<width}"]: left-justified, padded with spaces on the right. *)
Definition ljust (width : nat) (s : str) : str :=
  s ++ repeat SPACE (width - List.length s).

(** [content.decode('latin-1')]: every byte is its own code point. *)
Definition decode_latin1 (content : bytes) : str := map Byte.to_N content.

(** The exception classes the program names, and the ones its callees
    raise.  [ValueError] stands for a [ValueError] that is not a
    [UnicodeDecodeError] (such as [json.JSONDecodeError]); [OtherError]
    for any class outside this list (such as [xml.sax.SAXParseException]). *)
Inductive exn_class :=
| UnicodeDecodeError | IOError | KeyError | AttributeError
| TypeError | StopIteration | ValueError | OtherError.

Definition exn_class_eqb (c d : exn_class) : bool :=
  match c, d with
  | UnicodeDecodeError, UnicodeDecodeError | IOError, IOError
  | KeyError, KeyError | AttributeError, AttributeError
  | TypeError, TypeError | StopIteration, StopIteration
  | ValueError, ValueError | OtherError, OtherError => true
  | _, _ => false
  end.

Record exn := Exn { exn_cls : exn_class; exn_str : str }.

(** [isinstance(e, classes)], as tested by an [except (...)] clause. *)
Definition isinstance (e : exn) (classes : list exn_class) : bool :=
  existsb (exn_class_eqb (exn_cls e)) classes.

Inductive result (A : Type) :=
| Ok (a : A)
| Raise (e : exn).
Arguments Ok {A} a.
Arguments Raise {A} e.

Definition bind {A B} (r : result A) (k : A -> result B) : result B :=
  match r with
  | Ok a => k a
  | Raise e => Raise e
  end.

(** [try: body  except classes as e: handler e] *)
Definition try_except {A} (body : result A) (classes : list exn_class)
    (handler : exn -> result A) : result A :=
  match body with
  | Ok a => Ok a
  | Raise e => if isinstance e classes then handler e else Raise e
  end.

Declare Scope py_scope.
Delimit Scope py_scope with py.
Notation "x <- c ;; k" := (bind c (fun x => k))
  (at level 100, c at next level, right associativity) : py_scope.
Local Open Scope py_scope.

(* ================================================================== *)
(** ** The record objects handed over by pymarc *)

(** Modelled from the spec: pymarc's [Record], [Field] and [Subfield]
    classes are not part of the sources.  The model is the record model
    of the specification (ordered fields, each a control field with raw
    text or a data field with two indicators and ordered subfields),
    with the accessors [parse_record] calls.  Control and data fields
    stay in one sequence, in source order, as [get_fields()] returns
    them. *)
Record Subfield := { code : str; value : str }.

Inductive Field :=
| ControlField (tag data : str)
| DataField (tag : str) (indicators : str * str) (subfields : list Subfield).

Record MarcRecord := { leader : str; fields : list Field }.

(** What a decoder puts in its list: a record, or [None] (the fallback
    mnemonic parser appends [None] for every block). *)
Inductive pyobject :=
| PyNone
| PyRecord (r : MarcRecord).

Definition field_tag (f : Field) : str :=
  match f with
  | ControlField tag _ => tag
  | DataField tag _ _ => tag
  end.

(** [field.is_control_field()] *)
Definition is_control_field (f : Field) : bool :=
  match f with
  | ControlField _ _ => true
  | DataField _ _ _ => false
  end.

(** [field.value()]: the data of a control field; for a data field the
    stripped subfield values joined by a space. *)
Definition field_value (f : Field) : str :=
  match f with
  | ControlField _ data => data
  | DataField _ _ subfields =>
      join (u " ") (map (fun sf => str_strip (value sf)) subfields)
  end.

Definition has_tag (tag : str) (f : Field) : bool := str_eqb (field_tag f) tag.

(** What [tag in None] raises. *)
Definition none_not_iterable : exn :=
  Exn TypeError (u "argument of type 'NoneType' is not iterable").

(** [tag in record] *)
Definition record_contains (tag : str) (record : pyobject) : result bool :=
  match record with
  | PyNone => Raise none_not_iterable
  | PyRecord r => Ok (existsb (has_tag tag) (fields r))
  end.

(** [record[tag]]: the first field with that tag, [KeyError] without one. *)
Definition record_getitem (record : pyobject) (tag : str) : result Field :=
  match record with
  | PyNone =>
      Raise (Exn TypeError (u "'NoneType' object is not subscriptable"))
  | PyRecord r =>
      match find (has_tag tag) (fields r) with
      | Some f => Ok f
      | None => Raise (Exn KeyError (u "'" ++ tag ++ u "'"))
      end
  end.

(** [record.get_fields()] *)
Definition get_fields (record : pyobject) : result (list Field) :=
  match record with
  | PyNone =>
      Raise (Exn AttributeError
               (u "'NoneType' object has no attribute 'get_fields'"))
  | PyRecord r => Ok (fields r)
  end.

(* ================================================================== *)
(** ** The calls into pymarc and the Python runtime *)

(** - [parse_xml_to_array content], [parse_json_to_array content]: the
      list of records, or the exception raised.
    - [MARCReader content]: [list(MARCReader(marc_file, to_unicode=True,
      force_utf8=True))] on the file rewound to its start.
    - [TextReader]: the module-level name; [None] when the import
      failed, otherwise [Some next_record] with [next_record text] the
      outcome of [next(TextReader(StringIO(text)))].
    - [decode_utf8_replace content]: [content.decode('utf-8',
      errors='replace')], which never raises.
    - [format_exc e]: [traceback.format_exc()] while [e] is handled. *)
Class Runtime := {
  parse_xml_to_array : bytes -> result (list pyobject);
  parse_json_to_array : bytes -> result (list pyobject);
  MARCReader : bytes -> result (list pyobject);
  TextReader : option (str -> result pyobject);
  decode_utf8_replace : bytes -> str;
  format_exc : exn -> str
}.

(* ================================================================== *)
(** ** The widgets of [MarcViewer] *)

Record MarcViewer := {
  placeholder_label_visible : bool;
  text_edit_visible : bool;
  text_edit_text : str
}.

(** The window as [__init__] leaves it: the placeholder is shown, the
    text widget is hidden and empty. *)
Definition init : MarcViewer :=
  {| placeholder_label_visible := true;
     text_edit_visible := false;
     text_edit_text := [] |}.

(** A method of [MarcViewer] that touches the widgets: it returns or
    raises, and leaves the widgets in a new state either way. *)
Definition M (A : Type) : Type := MarcViewer -> result A * MarcViewer.

Definition lift {A} (r : result A) : M A := fun self => (r, self).

Definition bindM {A B} (m : M A) (k : A -> M B) : M B :=
  fun self =>
    match m self with
    | (Ok a, self') => k a self'
    | (Raise e, self') => (Raise e, self')
    end.

Definition try_exceptM {A} (body : M A) (classes : list exn_class)
    (handler : exn -> M A) : M A :=
  fun self =>
    match body self with
    | (Ok a, self') => (Ok a, self')
    | (Raise e, self') =>
        if isinstance e classes then handler e self' else (Raise e, self')
    end.

Notation "x <~ c ;; k" := (bindM c (fun x => k))
  (at level 100, c at next level, right associativity) : py_scope.

(** [self.placeholder_label.hide()] *)
Definition placeholder_label_hide : M unit :=
  fun self =>
    (Ok tt, {| placeholder_label_visible := false;
               text_edit_visible := text_edit_visible self;
               text_edit_text := text_edit_text self |}).

(** [self.text_edit.show()] *)
Definition text_edit_show : M unit :=
  fun self =>
    (Ok tt, {| placeholder_label_visible := placeholder_label_visible self;
               text_edit_visible := true;
               text_edit_text := text_edit_text self |}).

(** [self.text_edit.setText(text)] *)
Definition text_edit_setText (text : str) : M unit :=
  fun self =>
    (Ok tt, {| placeholder_label_visible := placeholder_label_visible self;
               text_edit_visible := text_edit_visible self;
               text_edit_text := text |}).

(* ================================================================== *)
(** ** The methods of [MarcViewer] *)

Definition bEQ : byte := x3d.

(** The text appended after every record: ["\n" + "=" * 40 + "\n"]. *)
Definition separator : str := [LF] ++ repeat 61%N 40 ++ [LF].

Section Methods.

Context {rt : Runtime}.

(** [is_marcxml]: [content.strip().startswith(b'<?xml')] *)
Definition is_marcxml (content : bytes) : bool :=
  startswith Byte.eqb (bytes_strip content) (b "<?xml").

(** [is_json]: [content.strip().startswith(b'[') or
    content.strip().startswith(b'{')] *)
Definition is_json (content : bytes) : bool :=
  startswith Byte.eqb (bytes_strip content) (b "[")
  || startswith Byte.eqb (bytes_strip content) (b "{").

(** [is_mnemonic]: [b'\n' in content and b'=' in content[:100]] *)
Definition is_mnemonic (content : bytes) : bool :=
  contains_sub Byte.eqb [bLF] content
  && contains_sub Byte.eqb [bEQ] (firstn 100 content).

(** [parse_mnemonic_records_fallback]: one [None] per block. *)
Definition parse_mnemonic_records_fallback (content : bytes)
    : result (list pyobject) :=
  let content_str := decode_utf8_replace content in
  let records_data := split_blank (str_strip content_str) in
  Ok (fold_left (fun records _ => records ++ [PyNone]) records_data []).

(** [parse_mnemonic_record] *)
Definition parse_mnemonic_record (record_data : str) : result pyobject :=
  match TextReader with
  | Some next_record => next_record record_data
  | None => Ok PyNone
  end.

(** The loop of [parse_mnemonic_records] over the blocks, with the list
    [records] built so far. *)
Fixpoint parse_blocks (records_data : list str) (records : list pyobject)
    : result (list pyobject) :=
  match records_data with
  | [] => Ok records
  | record_data :: rest =>
      appended <- try_except
                    (record <- parse_mnemonic_record record_data ;;
                     Ok (records ++ [record]))
                    [StopIteration; TypeError]
                    (fun _ => Ok records) ;;
      parse_blocks rest appended
  end.

(** [parse_mnemonic_records] *)
Definition parse_mnemonic_records (content : bytes) : result (list pyobject) :=
  match TextReader with
  | None => parse_mnemonic_records_fallback content
  | Some _ =>
      content_str <- try_except
                       (Ok (decode_utf8_replace content))
                       [UnicodeDecodeError]
                       (fun _ => Ok (decode_latin1 content)) ;;
      let records_data := split_blank (str_strip content_str) in
      parse_blocks records_data []
  end.

(** The body of the loop over [record.get_fields()] in [parse_record]:
    the line added to [output] for one field. *)
Definition add_field (output : str) (field : Field) : str :=
  match field with
  | ControlField tag data =>
      output ++ (tag ++ u ": " ++ data ++ [LF])
  | DataField tag indicators field_subfields =>
      let subfields :=
        join (u " ")
             (map (fun subfield => code subfield ++ u " " ++ value subfield)
                  field_subfields) in
      output ++ (ljust 4 tag ++ u " " ++ fst indicators ++ snd indicators
                 ++ u " " ++ subfields ++ [LF])
  end.

(** The text [parse_record] returns from its handler. *)
Definition parsing_error_message (e : exn) : str :=
  u "Error parsing record: " ++ exn_str e ++ [LF]
  ++ u "Details:" ++ [LF] ++ format_exc e.

(** [parse_record] *)
Definition parse_record (record : pyobject) : result str :=
  try_except
    (has_id <- record_contains (u "001") record ;;
     record_id <- (if has_id : bool
                   then field <- record_getitem record (u "001") ;;
                        Ok (field_value field)
                   else Ok (u "No ID")) ;;
     let output := u "Record ID: " ++ record_id ++ [LF] in
     record_fields <- get_fields record ;;
     Ok (fold_left add_field record_fields output))
    [KeyError; AttributeError]
    (fun e => Ok (parsing_error_message e)).

(** The loop of [load_marc_file] over [records], with the text
    [record_output] built so far. *)
Fixpoint render_records (records : list pyobject) (record_output : str)
    : result str :=
  match records with
  | [] => Ok record_output
  | record :: rest =>
      rendered <- parse_record record ;;
      render_records rest ((record_output ++ rendered) ++ separator)
  end.

(** The [if]/[elif] chain of [load_marc_file] that picks the decoder. *)
Definition decode (content : bytes) : result (list pyobject) :=
  if is_marcxml content then parse_xml_to_array content
  else if is_json content then parse_json_to_array content
  else if is_mnemonic content then parse_mnemonic_records content
  else MARCReader content.

(** The text [load_marc_file] shows from its handler. *)
Definition reading_error_message (e : exn) : str :=
  u "Error reading MARC file: " ++ exn_str e ++ [LF]
  ++ u "Details:" ++ [LF] ++ format_exc e.

(** [load_marc_file].  [file] is what [open(file_path, 'rb')] followed
    by [marc_file.read()] gives: the content of the file, or the
    exception raised. *)
Definition load_marc_file (file : result bytes) : M unit :=
  try_exceptM
    (content <~ lift file ;;
     _ <~ placeholder_label_hide ;;
     _ <~ text_edit_show ;;
     records <~ lift (decode content) ;;
     record_output <~ lift (render_records records []) ;;
     text_edit_setText record_output)
    [UnicodeDecodeError; IOError]
    (fun e => text_edit_setText (reading_error_message e)).

(** The branch of [load_marc_file] a content is sent to.  The names are
    the specification's; no branch of the program stands for [Unknown]. *)
Inductive format := Xml | Json | Mnemonic | Binary | Unknown.

Definition classify (content : bytes) : format :=
  if is_marcxml content then Xml
  else if is_json content then Json
  else if is_mnemonic content then Mnemonic
  else Binary.

End Methods.

(* ================================================================== *)
(** ** The specification's wording, for comparison with the program *)

(** The data-field line as the specification words it: the tag padded
    to width 4, immediately the two indicators, a space, the subfields. *)
Definition spec_data_field_line (tag : str) (indicators : str * str)
    (field_subfields : list Subfield) : str :=
  ljust 4 tag ++ fst indicators ++ snd indicators ++ u " "
  ++ join (u " ")
       (map (fun subfield => code subfield ++ u " " ++ value subfield)
            field_subfields).

(** The mnemonic rule as the specification words it: applied to the
    trimmed content. *)
Definition spec_is_mnemonic (content : bytes) : bool :=
  let trimmed := bytes_strip content in
  contains_sub Byte.eqb [bLF] trimmed
  && contains_sub Byte.eqb [bEQ] (firstn 100 trimmed).

(** What [load_marc_file] leaves in the widgets once a file was read. *)
Definition shown (self : MarcViewer) : MarcViewer :=
  {| placeholder_label_visible := false;
     text_edit_visible := true;
     text_edit_text := text_edit_text self |}.

Definition with_text (text : str) (self : MarcViewer) : MarcViewer :=
  {| placeholder_label_visible := placeholder_label_visible self;
     text_edit_visible := text_edit_visible self;
     text_edit_text := text |}.

(** The widgets at the point where a call stops or sets its text: they
    are switched once the file was read, and left alone when the read
    itself failed. *)
Definition after_read (file : result bytes) (self : MarcViewer) : MarcViewer :=
  match file with
  | Ok _ => shown self
  | Raise _ => self
  end.

(** The text of a whole call: read, decode, render every record. *)
Definition produce {rt : Runtime} (file : result bytes) : result str :=
  content <- file ;;
  records <- decode content ;;
  render_records records [].

(** The ID shown on the first line of a rendered record. *)
Definition record_id (r : MarcRecord) : str :=
  match find (has_tag (u "001")) (fields r) with
  | Some field => field_value field
  | None => u "No ID"
  end.

(** The lines of a sequence of fields. *)
Definition field_lines (fs : list Field) : str :=
  List.concat (map (add_field []) fs).

(* ================================================================== *)
(** ** Sample inputs and stand-ins for pymarc *)

(** JSON text written with ['] for the double quote. *)
Definition json_text (s : string) : bytes :=
  map (fun c => if Byte.eqb c x27 then x22 else c) (b s).

(** The record of the end-to-end scenario, wrapped in an array. *)
Definition json_input : bytes :=
  json_text "[{'leader':'00123nam a2200061 a 4500','fields':[{'001':'12345'},{'245':{'ind1':'1','ind2':'0','subfields':[{'a':'Title'}]}}]}]".

Definition title_field : Field :=
  DataField (u "245") (u "1", u "0") [{| code := u "a"; value := u "Title" |}].

Definition json_record : MarcRecord :=
  {| leader := u "00123nam a2200061 a 4500";
     fields := [ControlField (u "001") (u "12345"); title_field] |}.

Definition id_record : MarcRecord :=
  {| leader := []; fields := [ControlField (u "001") (u "12345")] |}.

(** Two mnemonic blocks with a blank line between them; the second one
    is no record. *)
Definition two_blocks (second : string) : bytes :=
  b "=001  12345" ++ [bLF; bLF] ++ b second.

(** Whitespace, the XML prefix, then bytes the later rules look for. *)
Definition xml_sample : bytes :=
  [x20; bLF] ++ b "<?xml [{=" ++ [bLF; bEQ; x20].

(** Two mnemonic lines, each ended by a newline. *)
Definition mnemonic_sample : bytes :=
  b "=LDR  00123nam" ++ [bLF] ++ b "=001  12345" ++ [bLF].

(** One tag and the newline that ends the file. *)
Definition bare_tag_sample : bytes := b "=245" ++ [bLF].

(** A hundred spaces in front of two short lines. *)
Definition padded_sample : bytes :=
  repeat x20 100 ++ b "=a" ++ [bLF] ++ b "b".

(** What [open] raises for a path that does not exist. *)
Definition no_such_file : exn :=
  Exn IOError (u "[Errno 2] No such file or directory: 'missing.mrc'").

(** A hand-written text reader (pymarc has none): it knows the block
    [=001  12345], fails like an exhausted iterator on other text, and
    with a [ValueError] on a block that starts with [=bad]. *)
Definition sample_next_record (text : str) : result pyobject :=
  if str_eqb text (u "=001  12345") then Ok (PyRecord id_record)
  else if startswith N.eqb text (u "=bad")
       then Raise (Exn ValueError (u "invalid literal"))
  else Raise (Exn StopIteration []).

Definition sample_format_exc (e : exn) : str :=
  u "Traceback (most recent call last):" ++ [LF] ++ exn_str e ++ [LF].

(** A stand-in runtime for the examples.  Its decoders are written by
    hand and are not pymarc's (for what the program meets with pymarc
    see [pymarc_rt]): the JSON scenario gives the record it describes,
    other JSON text and every XML text is a syntax error, a binary file
    has no record, a text reader exists, text is ASCII. *)
Definition sample_rt : Runtime :=
  {| parse_xml_to_array := fun _ =>
       Raise (Exn OtherError (u "not well-formed (invalid token)"));
     parse_json_to_array := fun content =>
       if bytes_eqb content json_input then Ok [PyRecord json_record]
       else Raise (Exn ValueError (u "Expecting value"));
     MARCReader := fun _ => Ok [];
     TextReader := Some sample_next_record;
     decode_utf8_replace := decode_latin1;
     format_exc := sample_format_exc |}.

(** The stand-in runtime without its text reader. *)
Definition fallback_rt : Runtime :=
  {| parse_xml_to_array := @parse_xml_to_array sample_rt;
     parse_json_to_array := @parse_json_to_array sample_rt;
     MARCReader := @MARCReader sample_rt;
     TextReader := None;
     decode_utf8_replace := decode_latin1;
     format_exc := sample_format_exc |}.

(* ================================================================== *)
(** ** Drag and drop *)

(** [x.endswith(suffix)] *)
Definition endswith (x suffix : str) : bool :=
  startswith N.eqb (rev x) (rev suffix).

(** The tuple of extensions [dropEvent] lets through. *)
Definition accepted_extensions : list str :=
  [u ".mrc"; u ".marc"; u ".001"; u ".dat"; u ".txt"].

(** [file_path.endswith(('.mrc', '.marc', '.001', '.dat', '.txt'))] *)
Definition accepted (file_path : str) : bool :=
  existsb (endswith file_path) accepted_extensions.

(** [dragEnterEvent]: the drag is accepted when it carries URLs;
    [accepted_before] is the state of the event when it arrives. *)
Definition dragEnterEvent (has_urls accepted_before : bool) : bool :=
  if has_urls then true else accepted_before.

(** [dropEvent].  [urls] holds [url.toLocalFile()] for every URL of the
    event, in order; [open_read file_path] is what opening and reading
    that path gives.  An exception that leaves [load_marc_file] leaves
    the loop and [dropEvent] with it. *)
Fixpoint dropEvent {rt : Runtime} (open_read : str -> result bytes)
    (urls : list str) : M unit :=
  match urls with
  | [] => lift (Ok tt)
  | file_path :: rest =>
      _ <~ (if accepted file_path
            then load_marc_file (open_read file_path)
            else lift (Ok tt)) ;;
      dropEvent open_read rest
  end.

(* ================================================================== *)
(** ** Notions used to state the properties *)

(** The text of one record object. *)
Definition record_text (r : MarcRecord) : str :=
  u "Record ID: " ++ record_id r ++ [LF] ++ field_lines (fields r).

(** A block the loop of [parse_mnemonic_records] gets past: its parse
    returns, or raises one of the two classes the loop catches. *)
Definition recoverable (next_record : str -> result pyobject) (block : str)
    : bool :=
  match next_record block with
  | Ok _ => true
  | Raise e => isinstance e [StopIteration; TypeError]
  end.

(** The records of the blocks that parse, in the order of the blocks. *)
Fixpoint parsed_records (next_record : str -> result pyobject)
    (blocks : list str) : list pyobject :=
  match blocks with
  | [] => []
  | block :: rest =>
      match next_record block with
      | Ok record => record :: parsed_records next_record rest
      | Raise _ => parsed_records next_record rest
      end
  end.

(** A file system with three files, for the drag-and-drop samples. *)
Definition sample_open_read (file_path : str) : result bytes :=
  if str_eqb file_path (u "scenario.txt") then Ok json_input
  else if str_eqb file_path (u "blocks.mrc") then Ok (two_blocks "???")
  else if str_eqb file_path (u "broken.dat") then Ok (b "[")
  else Raise no_such_file.

(* ================================================================== *)
(** ** The runtime the program meets *)

(** What the calls give with pymarc installed.  pymarc exports no
    [TextReader], so the import fails and the name is [None].
    [parse_json_to_array] puts an argument that is no file into a
    [StringIO], which raises [TypeError] for the [bytes] that
    [load_marc_file] passes; [parse_xml_to_array] hands them to the SAX
    parser, which raises [AttributeError] for [bytes].  The binary
    reader here has no record to give (as for an empty file); text is
    ASCII. *)
Definition pymarc_rt : Runtime :=
  {| parse_xml_to_array := fun _ =>
       Raise (Exn AttributeError
                (u "'bytes' object has no attribute 'getCharacterStream'"));
     parse_json_to_array := fun _ =>
       Raise (Exn TypeError (u "initial_value must be str or None, not bytes"));
     MARCReader := fun _ => Ok [];
     TextReader := None;
     decode_utf8_replace := decode_latin1;
     format_exc := sample_format_exc |}.

(* ================================================================== *)
(** ** Rendering with the objects in place *)

(** In Python the argument of [parse_record] is a reference to an
    object that can be changed in place, and the widgets are objects
    too.  A [world] holds what a call could change: the record object
    at every address, and the widgets. *)
Record world := {
  objects : nat -> MarcRecord;
  window : MarcViewer
}.

(** A value passed as [record]: [None], or a reference to a record. *)
Inductive pyref :=
| RefNone
| RefRecord (address : nat).

(** The object a value stands for in a world. *)
Definition deref (w : world) (record : pyref) : pyobject :=
  match record with
  | RefNone => PyNone
  | RefRecord address => PyRecord (objects w address)
  end.

(** Code that runs in a world: it returns or raises, and leaves a
    world. *)
Definition St (A : Type) : Type := world -> result A * world.

Definition retS {A} (a : A) : St A := fun w => (Ok a, w).

Definition bindS {A B} (m : St A) (k : A -> St B) : St B :=
  fun w =>
    match m w with
    | (Ok a, w') => k a w'
    | (Raise e, w') => (Raise e, w')
    end.

Definition try_exceptS {A} (body : St A) (classes : list exn_class)
    (handler : exn -> St A) : St A :=
  fun w =>
    match body w with
    | (Ok a, w') => (Ok a, w')
    | (Raise e, w') =>
        if isinstance e classes then handler e w' else (Raise e, w')
    end.

Notation "x <~~ c ;; k" := (bindS c (fun x => k))
  (at level 100, c at next level, right associativity) : py_scope.

(** A call of an accessor ([tag in record], [record[tag]],
    [record.get_fields()]): it looks at the object as it is now. *)
Definition read {A} (accessor : pyobject -> result A) (record : pyref) : St A :=
  fun w => (accessor (deref w record), w).

(** [record.add_field(field)] of pymarc, which changes the object in
    place.  The program never calls it; it shows what a change of a
    record is. *)
Definition st_add_field (record : pyref) (field : Field) : St unit :=
  fun w =>
    match record with
    | RefNone =>
        (Raise (Exn AttributeError
                  (u "'NoneType' object has no attribute 'add_field'")), w)
    | RefRecord address =>
        (Ok tt,
         {| objects := fun other =>
              if Nat.eqb other address
              then {| leader := leader (objects w address);
                      fields := fields (objects w address) ++ [field] |}
              else objects w other;
            window := window w |})
    end.

(** [self.text_edit.setText(text)], as [load_marc_file] calls it. *)
Definition st_setText (text : str) : St unit :=
  fun w =>
    (Ok tt, {| objects := objects w;
               window := snd (text_edit_setText text (window w)) |}).

(** [parse_record], statement by statement, on the object the argument
    refers to. *)
Definition parse_record_st {rt : Runtime} (record : pyref) : St str :=
  try_exceptS
    (has_id <~~ read (record_contains (u "001")) record ;;
     record_id <~~ (if has_id : bool
                    then field <~~ read (fun object =>
                                           record_getitem object (u "001"))
                                        record ;;
                         retS (field_value field)
                    else retS (u "No ID")) ;;
     let output := u "Record ID: " ++ record_id ++ [LF] in
     record_fields <~~ read get_fields record ;;
     retS (fold_left add_field record_fields output))
    [KeyError; AttributeError]
    (fun e => retS (parsing_error_message e)).

(** Two worlds for the examples: the scenario's record sits at address
    0 of the first and at every address of the second, whose window has
    already shown a text. *)
Definition sample_world : world :=
  {| objects := fun address =>
       if Nat.eqb address 0 then json_record else id_record;
     window := init |}.

Definition other_world : world :=
  {| objects := fun _ => json_record;
     window := with_text (u "an earlier text") (shown init) |}.

(* ================================================================== *)
(** ** Lists, prefixes and trimming *)

Lemma contains_single_In (x : byte) (l : bytes) :
  contains_sub Byte.eqb [x] l = true <-> In x l.
Proof.
  induction l as [|a l IH]; simpl.
  - split; [discriminate | contradiction].
  - rewrite andb_true_r, orb_true_iff, IH. split.
    + intros [H|H]; [left; now apply byte_dec_bl | now right].
    + intros [H|H]; [left; now apply byte_dec_lb | now right].
Qed.

Lemma startswith_refl_app (pre tail : bytes) :
  startswith Byte.eqb (pre ++ tail) pre = true.
Proof.
  induction pre as [|p pre IH]; simpl; [reflexivity|].
  rewrite IH, andb_true_r. now apply byte_dec_lb.
Qed.

Lemma dropwhile_app {A} (p : A -> bool) (x y : list A) :
  dropwhile p (x ++ y) =
  if forallb p x then dropwhile p y else dropwhile p x ++ y.
Proof.
  induction x as [|a x IH]; simpl; [reflexivity|].
  destruct (p a); simpl; [exact IH | reflexivity].
Qed.

Lemma dropwhile_stops {A} (p : A -> bool) (a : A) (x : list A) :
  p a = false -> dropwhile p (a :: x) = a :: x.
Proof. intros H. simpl. now rewrite H. Qed.

(** Trimming keeps a body that neither starts nor ends with whitespace,
    whatever whitespace precedes it and whatever text follows it. *)
Lemma strip_with_keeps {A} (p : A -> bool) (ws rest body : list A) (c d : A) :
  forallb p ws = true -> p c = false -> p d = false ->
  exists tail,
    strip_with p (ws ++ (c :: body ++ [d]) ++ rest) = (c :: body ++ [d]) ++ tail.
Proof.
  intros Hws Hc Hd. unfold strip_with.
  rewrite dropwhile_app, Hws.
  change ((c :: body ++ [d]) ++ rest) with (c :: (body ++ [d]) ++ rest).
  rewrite dropwhile_stops by exact Hc.
  change (c :: (body ++ [d]) ++ rest) with ((c :: body ++ [d]) ++ rest).
  rewrite rev_app_distr, dropwhile_app.
  assert (Hrev : rev (c :: body ++ [d]) = d :: rev (c :: body)).
  { change (c :: body ++ [d]) with ((c :: body) ++ [d]).
    now rewrite rev_app_distr. }
  destruct (forallb p (rev rest)).
  - exists []. rewrite Hrev, dropwhile_stops by exact Hd. rewrite <- Hrev.
    now rewrite rev_involutive, app_nil_r.
  - exists (rev (dropwhile p (rev rest))).
    now rewrite rev_app_distr, rev_involutive.
Qed.

(* ================================================================== *)
(** ** The widgets after a call *)

(** [load_marc_file] in one equation: the widgets are switched as soon
    as the file was read; the text is replaced by the rendering, or by
    the error message for the two classes the handler names; any other
    exception leaves the call with the text untouched. *)
Lemma load_marc_file_eq {rt : Runtime} (file : result bytes) (self : MarcViewer) :
  load_marc_file file self =
  match produce file with
  | Ok out => (Ok tt, with_text out (after_read file self))
  | Raise e =>
      if isinstance e [UnicodeDecodeError; IOError]
      then (Ok tt, with_text (reading_error_message e) (after_read file self))
      else (Raise e, after_read file self)
  end.
Proof.
  unfold load_marc_file, try_exceptM, bindM, lift, produce.
  destruct file as [content|e]; simpl.
  - destruct (decode content) as [records|e]; simpl.
    + destruct (render_records records []) as [out|e]; simpl; [reflexivity|].
      now destruct e as [[] msg].
    + now destruct e as [[] msg].
  - now destruct e as [[] msg].
Qed.

Lemma classify_not_Unknown (content : bytes) : classify content <> Unknown.
Proof.
  unfold classify.
  destruct (is_marcxml content), (is_json content), (is_mnemonic content);
    discriminate.
Qed.

(* ================================================================== *)
(** ** The format rules *)

(** Content that is whitespace, then [<?xml], then anything at all,
    still starts with [<?xml] once trimmed. *)
Lemma xml_prefix_survives_strip (ws rest : bytes) :
  forallb bytes_isspace ws = true ->
  startswith Byte.eqb (bytes_strip (ws ++ b "<?xml" ++ rest)) (b "<?xml") = true.
Proof.
  intros Hws. unfold bytes_strip.
  change (b "<?xml") with (x3c :: [x3f; x78; x6d] ++ [x6c]).
  destruct (@strip_with_keeps _ bytes_isspace ws rest [x3f; x78; x6d] x3c x6c Hws
              eq_refl eq_refl) as [tail Htail].
  rewrite Htail. apply startswith_refl_app.
Qed.

(** C7.  A buffer that starts with [<?xml] once its whitespace is
    trimmed is classified Xml and handed to [parse_xml_to_array],
    whatever follows the prefix: the rule is tested before the Json,
    Mnemonic and Binary rules. *)
Theorem xml_rule_has_first_priority (content : bytes) :
  startswith Byte.eqb (bytes_strip content) (b "<?xml") = true ->
  classify content = Xml
  /\ forall rt : Runtime, @decode rt content = parse_xml_to_array content.
Proof.
  intros H. unfold classify, decode, is_marcxml. rewrite H. now split.
Qed.

Lemma xml_rule_has_first_priority_witness :
  startswith Byte.eqb (bytes_strip xml_sample) (b "<?xml") = true
  /\ classify xml_sample = Xml
  /\ forall rt : Runtime, @decode rt xml_sample = parse_xml_to_array xml_sample.
Proof.
  split.
  - reflexivity.
  - apply (xml_rule_has_first_priority xml_sample). reflexivity.
Defined.

(** The Xml rule fires on whitespace, [<?xml] and any rest. *)
Corollary xml_rule_any_rest (ws rest : bytes) :
  forallb bytes_isspace ws = true ->
  classify (ws ++ b "<?xml" ++ rest) = Xml.
Proof.
  intros Hws. unfold classify, is_marcxml.
  now rewrite xml_prefix_survives_strip.
Qed.

(** C6, as the program has it.  When the Xml and Json rules do not
    fire, the buffer is Mnemonic exactly when the untrimmed buffer holds
    a newline anywhere and [=] among its first 100 bytes; otherwise it
    is Binary and goes to the binary reader. *)
Theorem mnemonic_rule_reads_raw_content (content : bytes) :
  is_marcxml content = false ->
  is_json content = false ->
  (classify content = Mnemonic
   <-> In bLF content /\ In bEQ (firstn 100 content))
  /\ (classify content <> Mnemonic -> classify content = Binary)
  /\ (forall rt : Runtime,
        @decode rt content
        = match classify content with
          | Mnemonic => parse_mnemonic_records content
          | _ => MARCReader content
          end).
Proof.
  intros Hx Hj. unfold classify, decode. rewrite Hx, Hj.
  rewrite <- !contains_single_In. fold (is_mnemonic content).
  assert (Hm : is_mnemonic content = true
               <-> contains_sub Byte.eqb [bLF] content = true
                   /\ contains_sub Byte.eqb [bEQ] (firstn 100 content) = true)
    by apply andb_true_iff.
  destruct (is_mnemonic content).
  - split; [|split].
    + split; [intros _; now apply Hm | reflexivity].
    + intros H. now elim H.
    + reflexivity.
  - split; [|split].
    + split; [discriminate | intros H; apply Hm in H; discriminate H].
    + reflexivity.
    + reflexivity.
Qed.

Lemma mnemonic_rule_reads_raw_content_witness :
  is_marcxml mnemonic_sample = false
  /\ is_json mnemonic_sample = false
  /\ (classify mnemonic_sample = Mnemonic
      <-> In bLF mnemonic_sample /\ In bEQ (firstn 100 mnemonic_sample))
  /\ (classify mnemonic_sample <> Mnemonic -> classify mnemonic_sample = Binary)
  /\ (forall rt : Runtime,
        @decode rt mnemonic_sample = parse_mnemonic_records mnemonic_sample).
Proof.
  split; [reflexivity|]. split; [reflexivity|].
  apply (mnemonic_rule_reads_raw_content mnemonic_sample); reflexivity.
Defined.

(** C6, as worded, fails.  [=245] followed by a newline: no other rule
    fires and the program says Mnemonic, but the trimmed content has no
    newline left.  A hundred spaces before [=a], a newline and [b]: the
    trimmed content passes the worded rule, but the program looks at the
    first hundred raw bytes, finds no [=] and says Binary. *)
Lemma mnemonic_rule_not_on_trimmed_content :
  (is_marcxml bare_tag_sample = false /\ is_json bare_tag_sample = false
   /\ classify bare_tag_sample = Mnemonic
   /\ spec_is_mnemonic bare_tag_sample = false)
  /\ (is_marcxml padded_sample = false /\ is_json padded_sample = false
      /\ classify padded_sample = Binary
      /\ spec_is_mnemonic padded_sample = true).
Proof. repeat split. Qed.

(** C5, as the program has it.  On the empty buffer no rule fires, so
    the buffer goes to the binary reader; when the reader finds no
    record, the text is set to the empty string and nothing is raised
    or reported. *)
Theorem empty_buffer_goes_to_binary_reader {rt : Runtime} (self : MarcViewer) :
  MARCReader [] = Ok [] ->
  classify [] = Binary
  /\ decode [] = MARCReader []
  /\ load_marc_file (Ok []) self = (Ok tt, with_text [] (shown self)).
Proof.
  intros H. split; [reflexivity|]. split; [reflexivity|].
  rewrite load_marc_file_eq. unfold produce, decode. simpl. now rewrite H.
Qed.

Lemma empty_buffer_goes_to_binary_reader_witness :
  @MARCReader sample_rt [] = Ok []
  /\ classify [] = Binary
  /\ @decode sample_rt [] = @MARCReader sample_rt []
  /\ @load_marc_file sample_rt (Ok []) init
     = (Ok tt, with_text [] (shown init)).
Proof.
  split; [reflexivity|].
  apply (@empty_buffer_goes_to_binary_reader sample_rt init). reflexivity.
Defined.

(** C5, as worded, fails.  The empty buffer is classified Binary, not
    Unknown, and with a binary reader that finds no record in it the
    call ends normally with an empty text: no error message is shown. *)
Lemma empty_buffer_is_not_Unknown :
  classify [] = Binary
  /\ classify [] <> Unknown
  /\ @load_marc_file sample_rt (Ok []) init
     = (Ok tt, {| placeholder_label_visible := false;
                  text_edit_visible := true;
                  text_edit_text := [] |})
  /\ startswith N.eqb [] (u "Error") = false.
Proof. repeat split. discriminate. Qed.

(* ================================================================== *)
(** ** The renderer *)

Lemma existsb_find {A} (p : A -> bool) (l : list A) :
  existsb p l = match find p l with Some _ => true | None => false end.
Proof.
  induction l as [|a l IH]; simpl; [reflexivity|].
  now destruct (p a).
Qed.

Lemma add_field_app (output : str) (field : Field) :
  add_field output field = output ++ add_field [] field.
Proof. now destruct field. Qed.

Lemma fold_left_add_field (fs : list Field) (output : str) :
  fold_left add_field fs output = output ++ field_lines fs.
Proof.
  revert output. unfold field_lines.
  induction fs as [|f fs IH]; intros output; simpl.
  - now rewrite app_nil_r.
  - now rewrite IH, add_field_app, <- app_assoc.
Qed.

Lemma field_lines_app (fs gs : list Field) :
  field_lines (fs ++ gs) = field_lines fs ++ field_lines gs.
Proof. unfold field_lines. now rewrite map_app, concat_app. Qed.

(** A three-character tag is followed by one padding space. *)
Lemma ljust_tag (tag : str) :
  List.length tag = 3 -> ljust 4 tag = tag ++ [SPACE].
Proof. intros H. unfold ljust. now rewrite H. Qed.

(** A record object is rendered without ever reaching the handler:
    [record['001']] is only asked for after ['001' in record] said yes. *)
Lemma parse_record_PyRecord {rt : Runtime} (r : MarcRecord) :
  parse_record (PyRecord r)
  = Ok (u "Record ID: " ++ record_id r ++ [LF] ++ field_lines (fields r)).
Proof.
  unfold parse_record, record_contains, record_getitem, get_fields, record_id.
  cbn [bind]. rewrite existsb_find.
  destruct (find (has_tag (u "001")) (fields r)) as [field|];
    cbn [bind try_except]; rewrite fold_left_add_field;
    now rewrite <- !app_assoc.
Qed.

Lemma parse_record_PyNone {rt : Runtime} :
  parse_record PyNone = Raise none_not_iterable.
Proof. reflexivity. Qed.

(** C3, as the program has it.  For every record and every data field
    in it, the rendered text holds, at the field's place, exactly: the
    tag left-justified to width 4, one space, the two indicators, a
    space, the subfields (each as code, space, value) joined by a single
    space, and a newline. *)
Theorem data_field_line_layout {rt : Runtime} (r : MarcRecord)
    (before after : list Field) (tag : str) (indicators : str * str)
    (field_subfields : list Subfield) :
  fields r = before ++ DataField tag indicators field_subfields :: after ->
  parse_record (PyRecord r)
  = Ok (u "Record ID: " ++ record_id r ++ [LF]
        ++ field_lines before
        ++ (ljust 4 tag ++ u " " ++ fst indicators ++ snd indicators ++ u " "
            ++ join (u " ")
                 (map (fun subfield => code subfield ++ u " " ++ value subfield)
                      field_subfields)
            ++ [LF])
        ++ field_lines after).
Proof.
  intros H. rewrite parse_record_PyRecord, H, field_lines_app. reflexivity.
Qed.

Lemma data_field_line_layout_witness :
  fields json_record
  = [ControlField (u "001") (u "12345")]
    ++ DataField (u "245") (u "1", u "0")
         [{| code := u "a"; value := u "Title" |}] :: []
  /\ @parse_record sample_rt (PyRecord json_record)
     = Ok (u "Record ID: " ++ u "12345" ++ [LF]
           ++ u "001: 12345" ++ [LF]
           ++ (u "245 " ++ u " " ++ u "1" ++ u "0" ++ u " "
               ++ u "a Title" ++ [LF])
           ++ []).
Proof.
  split; [reflexivity|].
  apply (@data_field_line_layout sample_rt json_record
           [ControlField (u "001") (u "12345")] []
           (u "245") (u "1", u "0")
           [{| code := u "a"; value := u "Title" |}]).
  reflexivity.
Defined.

(** C3, as worded, fails.  Field 245 with indicators 1 and 0 and
    subfield a: the wording gives [245 10 a Title], the program prints
    [245  10 a Title], and the worded line occurs nowhere in the text. *)
Lemma data_field_line_has_extra_space :
  @parse_record sample_rt (PyRecord {| leader := []; fields := [title_field] |})
  = Ok (unlines ["Record ID: No ID"; "245  10 a Title"]%string)
  /\ spec_data_field_line (u "245") (u "1", u "0")
       [{| code := u "a"; value := u "Title" |}]
     = u "245 10 a Title"
  /\ contains_sub N.eqb (u "245 10 a Title")
       (unlines ["Record ID: No ID"; "245  10 a Title"]%string) = false.
Proof. repeat split. Qed.

(* ================================================================== *)
(** ** The whole call *)

(** C1, as the program has it.  A call whose read, decoding and
    rendering all succeed sets the text to the rendering.  A call in
    which one of them raises [UnicodeDecodeError] or [IOError] ends
    normally with the text set to one error message and nothing else.
    An exception of any other class is not handled: it leaves the call,
    and the text is what it was before. *)
Theorem load_marc_file_handles_two_classes {rt : Runtime}
    (file : result bytes) (self : MarcViewer) :
  (forall out, produce file = Ok out ->
     load_marc_file file self = (Ok tt, with_text out (after_read file self)))
  /\ (forall e, produce file = Raise e ->
        isinstance e [UnicodeDecodeError; IOError] = true ->
        load_marc_file file self
        = (Ok tt, with_text (reading_error_message e) (after_read file self)))
  /\ (forall e, produce file = Raise e ->
        isinstance e [UnicodeDecodeError; IOError] = false ->
        load_marc_file file self = (Raise e, after_read file self)
        /\ text_edit_text (after_read file self) = text_edit_text self).
Proof.
  rewrite load_marc_file_eq. split; [|split].
  - intros out ->. reflexivity.
  - intros e -> ->. reflexivity.
  - intros e -> ->. split; [reflexivity | now destruct file].
Qed.

Lemma load_marc_file_handles_two_classes_witness :
  @produce sample_rt (Raise no_such_file) = Raise no_such_file
  /\ isinstance no_such_file [UnicodeDecodeError; IOError] = true
  /\ @load_marc_file sample_rt (Raise no_such_file) init
     = (Ok tt, with_text (@reading_error_message sample_rt no_such_file) init).
Proof.
  split; [reflexivity|]. split; [reflexivity|].
  apply (proj1 (proj2 (@load_marc_file_handles_two_classes sample_rt
                          (Raise no_such_file) init)) no_such_file);
    reflexivity.
Defined.

(** C1, as worded, fails.  A JSON buffer with a syntax error and an XML
    buffer with a syntax error: the decoder's exception is neither a
    [UnicodeDecodeError] nor an [IOError], so it leaves [load_marc_file]
    unhandled; no error message is set, the text stays empty. *)
Lemma decoder_syntax_error_is_not_handled :
  @load_marc_file sample_rt (Ok (b "[")) init
  = (Raise (Exn ValueError (u "Expecting value")),
     {| placeholder_label_visible := false;
        text_edit_visible := true;
        text_edit_text := [] |})
  /\ @load_marc_file sample_rt (Ok (b "<?xml")) init
     = (Raise (Exn OtherError (u "not well-formed (invalid token)")),
        {| placeholder_label_visible := false;
           text_edit_visible := true;
           text_edit_text := [] |}).
Proof. split; reflexivity. Qed.

(* ================================================================== *)
(** ** The mnemonic decoder *)

Lemma classify_Mnemonic_inv (content : bytes) :
  classify content = Mnemonic ->
  is_marcxml content = false /\ is_json content = false
  /\ is_mnemonic content = true.
Proof.
  unfold classify.
  destruct (is_marcxml content), (is_json content), (is_mnemonic content);
    intros H; try discriminate H; now repeat split.
Qed.

Lemma decode_Mnemonic {rt : Runtime} (content : bytes) :
  classify content = Mnemonic ->
  decode content = parse_mnemonic_records content.
Proof.
  intros H. destruct (classify_Mnemonic_inv content H) as (Hx & Hj & Hm).
  unfold decode. now rewrite Hx, Hj, Hm.
Qed.

Lemma split_blank_from_two (c d : N) (s cur : str) :
  split_blank_from (c :: d :: s) cur
  = if ((c =? LF) && (d =? LF))%N
    then rev cur :: split_blank_from s []
    else split_blank_from (d :: s) (c :: cur).
Proof. reflexivity. Qed.

(** Splitting never gives an empty list: text without a blank line is
    one block. *)
Lemma split_blank_from_length (n : nat) :
  forall s cur, List.length s <= n -> 1 <= List.length (split_blank_from s cur).
Proof.
  induction n as [|n IH]; intros s cur Hlen.
  - destruct s; [simpl; lia | simpl in Hlen; lia].
  - destruct s as [|c [|d s'']]; [simpl; lia | simpl; lia |].
    rewrite split_blank_from_two.
    destruct ((c =? LF)%N && (d =? LF)%N).
    + simpl. lia.
    + apply IH. simpl in *. lia.
Qed.

Lemma split_blank_length (s : str) : 1 <= List.length (split_blank s).
Proof.
  unfold split_blank. apply split_blank_from_length with (n := List.length s).
  lia.
Qed.

Lemma fallback_loop (records_data : list str) (records : list pyobject) :
  fold_left (fun records _ => records ++ [PyNone]) records_data records
  = records ++ repeat PyNone (List.length records_data).
Proof.
  revert records. induction records_data as [|x l IH]; intros records; simpl.
  - now rewrite app_nil_r.
  - now rewrite IH, <- app_assoc.
Qed.

(** C9.  When the import of [TextReader] failed, every input
    classified Mnemonic is cut into at least one block, the fallback
    decoder returns [None] for each block, rendering [None] raises a
    [TypeError] that the handler of [parse_record] (for [KeyError] and
    [AttributeError]) lets through, and so does the handler of
    [load_marc_file]: the call is left by the exception and no text is
    set. *)
Theorem fallback_records_abort_the_call {rt : Runtime}
    (content : bytes) (self : MarcViewer) :
  TextReader = None ->
  classify content = Mnemonic ->
  1 <= List.length (split_blank (str_strip (decode_utf8_replace content)))
  /\ parse_mnemonic_records content
     = Ok (repeat PyNone
             (List.length
                (split_blank (str_strip (decode_utf8_replace content)))))
  /\ parse_record PyNone = Raise none_not_iterable
  /\ isinstance none_not_iterable [KeyError; AttributeError] = false
  /\ isinstance none_not_iterable [UnicodeDecodeError; IOError] = false
  /\ load_marc_file (Ok content) self = (Raise none_not_iterable, shown self)
  /\ text_edit_text (shown self) = text_edit_text self.
Proof.
  intros Hreader Hclass.
  set (blocks := split_blank (str_strip (decode_utf8_replace content))).
  assert (Hlen : 1 <= List.length blocks) by apply split_blank_length.
  assert (Hrecords :
            parse_mnemonic_records content
            = Ok (repeat PyNone (List.length blocks))).
  { unfold parse_mnemonic_records, parse_mnemonic_records_fallback.
    rewrite Hreader. now rewrite fallback_loop. }
  repeat split; try assumption.
  rewrite load_marc_file_eq. unfold produce. cbn [bind].
  rewrite (decode_Mnemonic content Hclass), Hrecords. cbn [bind].
  destruct (List.length blocks) as [|n]; [lia|].
  reflexivity.
Qed.

Lemma fallback_records_abort_the_call_witness :
  @TextReader fallback_rt = None
  /\ classify mnemonic_sample = Mnemonic
  /\ @parse_mnemonic_records fallback_rt mnemonic_sample = Ok [PyNone]
  /\ @load_marc_file fallback_rt (Ok mnemonic_sample) init
     = (Raise none_not_iterable, shown init).
Proof.
  split; [reflexivity|]. split; [reflexivity|].
  pose proof (@fallback_records_abort_the_call fallback_rt mnemonic_sample init
                eq_refl eq_refl) as (_ & Hrecords & _ & _ & _ & Hcall & _).
  split; [exact Hrecords | exact Hcall].
Defined.

(** C10.  In the loop over the blocks, a block whose parse raises
    [StopIteration] or [TypeError] is skipped and the loop goes on with
    the next block and the records found so far; a block whose parse
    raises an exception of any other class ends the loop with that
    exception, whatever blocks remain. *)
Theorem block_recovery_covers_two_classes {rt : Runtime}
    (next_record : str -> result pyobject) (block : str) (rest : list str)
    (records : list pyobject) (e : exn) :
  TextReader = Some next_record ->
  next_record block = Raise e ->
  (isinstance e [StopIteration; TypeError] = true ->
   parse_blocks (block :: rest) records = parse_blocks rest records)
  /\ (isinstance e [StopIteration; TypeError] = false ->
      parse_blocks (block :: rest) records = Raise e).
Proof.
  intros Hreader Hraise.
  cbn [parse_blocks]. unfold parse_mnemonic_record.
  rewrite Hreader, Hraise. cbn [bind try_except].
  split; intros ->; reflexivity.
Qed.

Lemma block_recovery_covers_two_classes_witness :
  @TextReader sample_rt = Some sample_next_record
  /\ sample_next_record (u "???") = Raise (Exn StopIteration [])
  /\ sample_next_record (u "=bad") = Raise (Exn ValueError (u "invalid literal"))
  /\ @parse_blocks sample_rt [u "???"; u "=001  12345"] []
     = @parse_blocks sample_rt [u "=001  12345"] []
  /\ @parse_blocks sample_rt [u "=bad"; u "=001  12345"] []
     = Raise (Exn ValueError (u "invalid literal")).
Proof.
  split; [reflexivity|]. split; [reflexivity|]. split; [reflexivity|].
  split.
  - apply (proj1 (@block_recovery_covers_two_classes sample_rt
                    sample_next_record (u "???") [u "=001  12345"] []
                    (Exn StopIteration []) eq_refl eq_refl)).
    reflexivity.
  - apply (proj2 (@block_recovery_covers_two_classes sample_rt
                    sample_next_record (u "=bad") [u "=001  12345"] []
                    (Exn ValueError (u "invalid literal")) eq_refl eq_refl)).
    reflexivity.
Defined.

(* ================================================================== *)
(** ** Further properties of the format rules *)

Lemma dropwhile_all {A} (p : A -> bool) (x : list A) :
  forallb p x = true -> dropwhile p x = [].
Proof.
  induction x as [|a x IH]; simpl; [reflexivity|].
  destruct (p a); simpl; [exact IH | discriminate].
Qed.

(** Trimming keeps the first byte that is no whitespace, whatever
    whitespace precedes it and whatever text follows it. *)
Lemma strip_with_keeps_head {A} (p : A -> bool) (ws rest : list A) (c : A) :
  forallb p ws = true -> p c = false ->
  exists tail, strip_with p (ws ++ c :: rest) = c :: tail.
Proof.
  intros Hws Hc. unfold strip_with.
  rewrite dropwhile_app, Hws, dropwhile_stops by exact Hc.
  change (c :: rest) with ([c] ++ rest).
  rewrite rev_app_distr, dropwhile_app.
  destruct (forallb p (rev rest)).
  - exists []. simpl. now rewrite Hc.
  - exists (rev (dropwhile p (rev rest))).
    now rewrite rev_app_distr.
Qed.

(** X1.  A buffer that is whitespace, then [[] or [{], then anything
    at all, is classified Json and handed to [parse_json_to_array],
    even when the rest holds newlines and [=]. *)
Theorem json_rule_any_rest (ws rest : bytes) (c : byte) :
  forallb bytes_isspace ws = true ->
  c = x5b \/ c = x7b ->
  classify (ws ++ c :: rest) = Json
  /\ forall rt : Runtime,
       @decode rt (ws ++ c :: rest) = parse_json_to_array (ws ++ c :: rest).
Proof.
  intros Hws Hc.
  assert (Hspace : bytes_isspace c = false) by (destruct Hc; now subst).
  destruct (strip_with_keeps_head bytes_isspace ws rest c Hws Hspace)
    as [tail Htail].
  unfold classify, decode, is_marcxml, is_json, bytes_strip.
  rewrite Htail. destruct Hc; subst c; (split; [|intros rt]; reflexivity).
Qed.

Lemma json_rule_any_rest_witness :
  forallb bytes_isspace [x20; bLF] = true
  /\ (x7b = x5b \/ x7b = x7b)
  /\ classify ([x20; bLF] ++ x7b :: b "=a" ++ [bLF]) = Json.
Proof.
  split; [reflexivity|]. split; [now right|].
  apply (json_rule_any_rest [x20; bLF] (b "=a" ++ [bLF]) (c := x7b));
    [reflexivity | now right].
Defined.

Lemma strip_with_all {A} (p : A -> bool) (x : list A) :
  forallb p x = true -> strip_with p x = [].
Proof. intros H. unfold strip_with. now rewrite (@dropwhile_all _ p x H). Qed.

(** X2.  A buffer that holds nothing but whitespace (the empty buffer
    included) passes no rule: it is classified Binary and handed to the
    binary reader, newlines or not. *)
Theorem whitespace_only_is_binary (content : bytes) :
  forallb bytes_isspace content = true ->
  classify content = Binary
  /\ forall rt : Runtime, @decode rt content = MARCReader content.
Proof.
  intros Hws.
  assert (Heq : contains_sub Byte.eqb [bEQ] (firstn 100 content) = false).
  { destruct (contains_sub Byte.eqb [bEQ] (firstn 100 content)) eqn:E;
      [|reflexivity].
    apply contains_single_In in E.
    assert (Hin : In bEQ content).
    { rewrite <- (firstn_skipn 100 content). apply in_or_app. now left. }
    rewrite forallb_forall in Hws. now apply Hws in Hin. }
  unfold classify, decode, is_marcxml, is_json, is_mnemonic, bytes_strip.
  rewrite (strip_with_all bytes_isspace content Hws), Heq, andb_false_r.
  now split.
Qed.

Lemma whitespace_only_is_binary_witness :
  forallb bytes_isspace [bLF; x20; x09; bLF] = true
  /\ classify [bLF; x20; x09; bLF] = Binary.
Proof.
  split; [reflexivity|].
  apply (whitespace_only_is_binary [bLF; x20; x09; bLF]). reflexivity.
Defined.

(* ================================================================== *)
(** ** Further properties of the renderer *)

(** X3.  For every record and every control field in it, the rendered
    text holds, at the field's place, exactly the tag, a colon, a space,
    the data and a newline; the tag is not padded. *)
Theorem control_field_line_layout {rt : Runtime} (r : MarcRecord)
    (before after : list Field) (tag data : str) :
  fields r = before ++ ControlField tag data :: after ->
  parse_record (PyRecord r)
  = Ok (u "Record ID: " ++ record_id r ++ [LF]
        ++ field_lines before
        ++ (tag ++ u ": " ++ data ++ [LF])
        ++ field_lines after).
Proof.
  intros H. rewrite parse_record_PyRecord, H, field_lines_app. reflexivity.
Qed.

Lemma control_field_line_layout_witness :
  fields json_record = [] ++ ControlField (u "001") (u "12345") :: [title_field]
  /\ @parse_record sample_rt (PyRecord json_record)
     = Ok (u "Record ID: " ++ u "12345" ++ [LF]
           ++ []
           ++ (u "001" ++ u ": " ++ u "12345" ++ [LF])
           ++ u "245  10 a Title" ++ [LF]).
Proof.
  split; [reflexivity|].
  apply (@control_field_line_layout sample_rt json_record [] [title_field]
           (u "001") (u "12345")).
  reflexivity.
Defined.

Lemma find_first {A} (p : A -> bool) (before after : list A) (x : A) :
  existsb p before = false -> p x = true ->
  find p (before ++ x :: after) = Some x.
Proof.
  intros Hb Hx. induction before as [|a before IH]; simpl.
  - now rewrite Hx.
  - simpl in Hb. apply orb_false_iff in Hb as [Ha Hb].
    rewrite Ha. now apply IH.
Qed.

(** X4.  The ID on the first line is the data of the first field
    tagged 001, whatever fields tagged 001 come later; that field still
    gets its own line [001: ...] at its place, so the ID shows twice. *)
Theorem record_id_is_first_001 {rt : Runtime} (r : MarcRecord)
    (before after : list Field) (data : str) :
  fields r = before ++ ControlField (u "001") data :: after ->
  existsb (has_tag (u "001")) before = false ->
  parse_record (PyRecord r)
  = Ok (u "Record ID: " ++ data ++ [LF]
        ++ field_lines before
        ++ (u "001: " ++ data ++ [LF])
        ++ field_lines after).
Proof.
  intros H Hbefore.
  rewrite parse_record_PyRecord. unfold record_id.
  rewrite H, find_first by (exact Hbefore || reflexivity).
  rewrite field_lines_app. reflexivity.
Qed.

Lemma record_id_is_first_001_witness :
  fields json_record = [] ++ ControlField (u "001") (u "12345") :: [title_field]
  /\ existsb (has_tag (u "001")) [] = false
  /\ @parse_record sample_rt (PyRecord json_record)
     = Ok (unlines ["Record ID: 12345"; "001: 12345"; "245  10 a Title"]%string).
Proof.
  split; [reflexivity|]. split; [reflexivity|].
  apply (@record_id_is_first_001 sample_rt json_record [] [title_field]
           (u "12345")); reflexivity.
Defined.

(** X5.  A record with no field tagged 001 is rendered with the first
    line [Record ID: No ID], followed by the lines of its fields;
    nothing is raised for the missing field. *)
Theorem record_without_001_has_no_id {rt : Runtime} (r : MarcRecord) :
  existsb (has_tag (u "001")) (fields r) = false ->
  parse_record (PyRecord r)
  = Ok (u "Record ID: No ID" ++ [LF] ++ field_lines (fields r)).
Proof.
  intros H. rewrite parse_record_PyRecord. unfold record_id.
  rewrite existsb_find in H.
  destruct (find (has_tag (u "001")) (fields r)); [discriminate H|].
  reflexivity.
Qed.

Lemma record_without_001_has_no_id_witness :
  existsb (has_tag (u "001")) [title_field] = false
  /\ @parse_record sample_rt (PyRecord {| leader := []; fields := [title_field] |})
     = Ok (unlines ["Record ID: No ID"; "245  10 a Title"]%string).
Proof.
  split; [reflexivity|].
  apply (@record_without_001_has_no_id sample_rt
           {| leader := []; fields := [title_field] |}).
  reflexivity.
Defined.

(* ================================================================== *)
(** ** Further properties of the batch loop *)

Lemma render_records_of_records {rt : Runtime} (rs : list MarcRecord) (acc : str) :
  render_records (map PyRecord rs) acc
  = Ok (acc ++ List.concat (map (fun r => record_text r ++ separator) rs)).
Proof.
  revert acc. induction rs as [|r rs IH]; intros acc.
  - simpl. now rewrite app_nil_r.
  - cbn [map render_records]. rewrite parse_record_PyRecord. cbn [bind].
    rewrite IH. cbn [map List.concat]. fold (record_text r).
    now rewrite <- !app_assoc.
Qed.

Lemma render_records_with_None {rt : Runtime} (records : list pyobject) (acc : str) :
  In PyNone records -> render_records records acc = Raise none_not_iterable.
Proof.
  revert acc. induction records as [|record rest IH]; intros acc Hin.
  - contradiction.
  - destruct record as [|r].
    + reflexivity.
    + cbn [render_records]. rewrite parse_record_PyRecord. cbn [bind].
      apply IH. destruct Hin as [H|H]; [discriminate H | exact H].
Qed.

(** X6.  When the decoder returns record objects only, the call never
    raises: the text is set to the records' texts in the decoder's
    order, each followed by the separator line (so an empty list gives
    an empty text). *)
Theorem batch_of_records_is_rendered_in_order {rt : Runtime}
    (content : bytes) (rs : list MarcRecord) (self : MarcViewer) :
  decode content = Ok (map PyRecord rs) ->
  load_marc_file (Ok content) self
  = (Ok tt,
     with_text (List.concat (map (fun r => record_text r ++ separator) rs))
       (shown self)).
Proof.
  intros H. rewrite load_marc_file_eq. unfold produce. cbn [bind].
  rewrite H. cbn [bind]. now rewrite render_records_of_records.
Qed.

Lemma batch_of_records_is_rendered_in_order_witness :
  @decode sample_rt json_input = Ok (map PyRecord [json_record])
  /\ @load_marc_file sample_rt (Ok json_input) init
     = (Ok tt, with_text (record_text json_record ++ separator) (shown init)).
Proof.
  split; [reflexivity|].
  apply (@batch_of_records_is_rendered_in_order sample_rt json_input
           [json_record] init).
  reflexivity.
Defined.

(** X7.  One [None] anywhere in the decoder's list makes the whole
    call fail: the [TypeError] of rendering it leaves [load_marc_file],
    no text is set, and the records rendered before it are lost. *)
Theorem none_record_aborts_the_batch {rt : Runtime}
    (content : bytes) (records : list pyobject) (self : MarcViewer) :
  decode content = Ok records ->
  In PyNone records ->
  load_marc_file (Ok content) self = (Raise none_not_iterable, shown self)
  /\ text_edit_text (shown self) = text_edit_text self.
Proof.
  intros H Hin. split; [|reflexivity].
  rewrite load_marc_file_eq. unfold produce. cbn [bind].
  rewrite H. cbn [bind]. now rewrite render_records_with_None.
Qed.

Lemma none_record_aborts_the_batch_witness :
  @decode fallback_rt mnemonic_sample = Ok [PyNone]
  /\ In PyNone [PyNone]
  /\ @load_marc_file fallback_rt (Ok mnemonic_sample) init
     = (Raise none_not_iterable, shown init).
Proof.
  split; [reflexivity|]. split; [now left|].
  apply (@none_record_aborts_the_batch fallback_rt mnemonic_sample [PyNone] init);
    [reflexivity | now left].
Defined.

(* ================================================================== *)
(** ** Further properties of the widgets *)

(** X8.  When the file cannot be opened or read, the error message is
    put into the text widget but neither widget is shown or hidden: on
    a window that has not loaded a file yet the message stays behind
    the placeholder. *)
Theorem read_failure_keeps_visibility {rt : Runtime} (e : exn) (self : MarcViewer) :
  isinstance e [UnicodeDecodeError; IOError] = true ->
  fst (load_marc_file (Raise e) self) = Ok tt
  /\ text_edit_text (snd (load_marc_file (Raise e) self))
     = reading_error_message e
  /\ text_edit_visible (snd (load_marc_file (Raise e) self))
     = text_edit_visible self
  /\ placeholder_label_visible (snd (load_marc_file (Raise e) self))
     = placeholder_label_visible self.
Proof.
  intros H. rewrite load_marc_file_eq. unfold produce. cbn [bind].
  rewrite H. now repeat split.
Qed.

Lemma read_failure_keeps_visibility_witness :
  isinstance no_such_file [UnicodeDecodeError; IOError] = true
  /\ text_edit_visible (snd (@load_marc_file sample_rt (Raise no_such_file) init))
     = false
  /\ placeholder_label_visible
       (snd (@load_marc_file sample_rt (Raise no_such_file) init)) = true.
Proof.
  split; [reflexivity|].
  pose proof (@read_failure_keeps_visibility sample_rt no_such_file init eq_refl)
    as (_ & _ & Hv & Hp).
  split; [exact Hv | exact Hp].
Defined.

(** X9.  Once the file was read, the placeholder is hidden and the
    text widget is shown, whatever happens next: a rendering, an error
    message, or an exception that leaves the call. *)
Theorem read_file_switches_widgets {rt : Runtime} (content : bytes)
    (self : MarcViewer) :
  placeholder_label_visible (snd (load_marc_file (Ok content) self)) = false
  /\ text_edit_visible (snd (load_marc_file (Ok content) self)) = true.
Proof.
  rewrite load_marc_file_eq.
  destruct (produce (Ok content)) as [out|e]; [now split|].
  destruct (isinstance e [UnicodeDecodeError; IOError]); now split.
Qed.

(** X10.  Loading replaces the text and never appends to it: whether
    the call returns or raises does not depend on the widgets it
    starts from, and when it returns, neither does the text it leaves. *)
Theorem load_replaces_the_text {rt : Runtime} (file : result bytes)
    (self1 self2 : MarcViewer) :
  fst (load_marc_file file self1) = fst (load_marc_file file self2)
  /\ (fst (load_marc_file file self1) = Ok tt ->
      text_edit_text (snd (load_marc_file file self1))
      = text_edit_text (snd (load_marc_file file self2))).
Proof.
  rewrite !load_marc_file_eq.
  destruct (produce file) as [out|e]; [now split|].
  destruct (isinstance e [UnicodeDecodeError; IOError]); [now split|].
  split; [reflexivity | discriminate].
Qed.

(** X11.  Loading the same file again changes nothing: the second call
    ends as the first did and leaves the widgets as the first left
    them. *)
Theorem load_twice_is_load_once {rt : Runtime} (file : result bytes)
    (self : MarcViewer) :
  load_marc_file file (snd (load_marc_file file self))
  = load_marc_file file self.
Proof.
  rewrite !load_marc_file_eq.
  destruct (produce file) as [out|e].
  - now destruct file.
  - destruct (isinstance e [UnicodeDecodeError; IOError]); now destruct file.
Qed.

(* ================================================================== *)
(** ** Further properties of the mnemonic decoder *)

Lemma parse_blocks_recoverable {rt : Runtime}
    (next_record : str -> result pyobject) (blocks : list str)
    (records : list pyobject) :
  TextReader = Some next_record ->
  forallb (recoverable next_record) blocks = true ->
  parse_blocks blocks records
  = Ok (records ++ parsed_records next_record blocks).
Proof.
  intros Hreader. revert records.
  induction blocks as [|block rest IH]; intros records Hall.
  - simpl. now rewrite app_nil_r.
  - simpl in Hall. apply andb_true_iff in Hall as [Hblock Hrest].
    cbn [parse_blocks parsed_records]. unfold parse_mnemonic_record.
    rewrite Hreader. unfold recoverable in Hblock.
    destruct (next_record block) as [record|e]; cbn [bind try_except].
    + rewrite (IH _ Hrest). now rewrite <- app_assoc.
    + rewrite Hblock. cbn [bind]. now apply IH.
Qed.

(** X12.  When every block either parses or fails with one of the two
    classes the loop catches, the decoder returns exactly the records
    of the blocks that parsed, in the order of the blocks; the failed
    blocks leave no entry behind. *)
Theorem mnemonic_records_are_the_parsed_blocks {rt : Runtime}
    (next_record : str -> result pyobject) (content : bytes) :
  TextReader = Some next_record ->
  forallb (recoverable next_record)
    (split_blank (str_strip (decode_utf8_replace content))) = true ->
  parse_mnemonic_records content
  = Ok (parsed_records next_record
          (split_blank (str_strip (decode_utf8_replace content)))).
Proof.
  intros Hreader Hall. unfold parse_mnemonic_records.
  rewrite Hreader. cbn [bind try_except].
  now rewrite (parse_blocks_recoverable _ [] Hreader Hall).
Qed.

Lemma mnemonic_records_are_the_parsed_blocks_witness :
  @TextReader sample_rt = Some sample_next_record
  /\ forallb (recoverable sample_next_record)
       (split_blank (str_strip (decode_latin1 (two_blocks "???")))) = true
  /\ @parse_mnemonic_records sample_rt (two_blocks "???")
     = Ok [PyRecord id_record].
Proof.
  split; [reflexivity|]. split; [reflexivity|].
  apply (@mnemonic_records_are_the_parsed_blocks sample_rt sample_next_record
           (two_blocks "???")); reflexivity.
Defined.

Lemma parse_blocks_app {rt : Runtime} (before rest : list str)
    (records : list pyobject) :
  parse_blocks (before ++ rest) records
  = (found <- parse_blocks before records ;; parse_blocks rest found).
Proof.
  revert records. induction before as [|block before IH]; intros records.
  - reflexivity.
  - cbn [app parse_blocks].
    destruct (try_except _ _ _) as [appended|e]; cbn [bind];
      [apply IH | reflexivity].
Qed.

(** X13.  The first block whose parse raises an exception of another
    class decides the whole decoding: the decoder raises that
    exception, the records of the blocks before it are dropped and the
    blocks after it are never parsed. *)
Theorem first_unhandled_block_aborts_decoding {rt : Runtime}
    (next_record : str -> result pyobject) (content : bytes)
    (before after : list str) (block : str) (e : exn) :
  TextReader = Some next_record ->
  split_blank (str_strip (decode_utf8_replace content))
  = before ++ block :: after ->
  forallb (recoverable next_record) before = true ->
  next_record block = Raise e ->
  isinstance e [StopIteration; TypeError] = false ->
  parse_mnemonic_records content = Raise e.
Proof.
  intros Hreader Hblocks Hbefore Hraise He. unfold parse_mnemonic_records.
  rewrite Hreader. cbn [bind try_except].
  rewrite Hblocks, parse_blocks_app.
  rewrite (parse_blocks_recoverable _ [] Hreader Hbefore). cbn [bind parse_blocks].
  unfold parse_mnemonic_record. rewrite Hreader, Hraise.
  cbn [bind try_except]. now rewrite He.
Qed.

Lemma first_unhandled_block_aborts_decoding_witness :
  @TextReader sample_rt = Some sample_next_record
  /\ split_blank (str_strip (decode_latin1 (two_blocks "=bad")))
     = [u "=001  12345"] ++ u "=bad" :: []
  /\ @parse_mnemonic_records sample_rt (two_blocks "=bad")
     = Raise (Exn ValueError (u "invalid literal")).
Proof.
  split; [reflexivity|]. split; [reflexivity|].
  apply (@first_unhandled_block_aborts_decoding sample_rt sample_next_record
           (two_blocks "=bad") [u "=001  12345"] [] (u "=bad")
           (Exn ValueError (u "invalid literal"))); reflexivity.
Defined.

Lemma join_cons (sep x : str) (l : list str) :
  l <> [] -> join sep (x :: l) = x ++ sep ++ join sep l.
Proof. destruct l; [congruence | reflexivity]. Qed.

Lemma split_blank_from_join (n : nat) :
  forall s cur, List.length s <= n ->
    join [LF; LF] (split_blank_from s cur) = rev cur ++ s.
Proof.
  induction n as [|n IH]; intros s cur Hlen.
  - destruct s; [simpl; now rewrite app_nil_r | simpl in Hlen; lia].
  - destruct s as [|c [|d s'']].
    + simpl. now rewrite app_nil_r.
    + reflexivity.
    + rewrite split_blank_from_two. simpl in Hlen.
      destruct ((c =? LF)%N && (d =? LF)%N) eqn:Hcut.
      * apply andb_true_iff in Hcut as [Hc Hd].
        apply N.eqb_eq in Hc, Hd. subst c d.
        rewrite join_cons.
        -- rewrite IH by lia. reflexivity.
        -- intros Hnil.
           pose proof (@split_blank_from_length (List.length s'') s'' []
                         (le_n _)) as Hone.
           rewrite Hnil in Hone. simpl in Hone. lia.
      * rewrite IH by (simpl; lia). simpl. now rewrite <- app_assoc.
Qed.

(** X14.  Cutting the text into blocks loses nothing and invents
    nothing: the blocks, joined again by blank lines, are the text. *)
Theorem blocks_joined_give_the_text (s : str) :
  join [LF; LF] (split_blank s) = s.
Proof.
  unfold split_blank.
  rewrite (@split_blank_from_join (List.length s) s [] (le_n _)).
  reflexivity.
Qed.

(* ================================================================== *)
(** ** Properties of drag and drop *)

Lemma startswith_refl_app_str (pre tail : str) :
  startswith N.eqb (pre ++ tail) pre = true.
Proof.
  induction pre as [|p pre IH]; simpl; [reflexivity|].
  now rewrite IH, N.eqb_refl.
Qed.

Lemma endswith_app (stem ext : str) : endswith (stem ++ ext) ext = true.
Proof.
  unfold endswith. rewrite rev_app_distr. apply startswith_refl_app_str.
Qed.

(** X15.  A path is let through exactly by its ending: whatever comes
    before one of the five extensions, the path is accepted (a bare
    [.mrc] too); paths ending in [.xml] or [.json] are not, although the
    loader has a decoder for their content, and neither is an
    upper-case [.MRC]. *)
Theorem accepted_by_extension (stem : str) :
  (forall ext, In ext accepted_extensions -> accepted (stem ++ ext) = true)
  /\ accepted (stem ++ u ".xml") = false
  /\ accepted (stem ++ u ".json") = false
  /\ accepted (stem ++ u ".MRC") = false.
Proof.
  split; [|repeat split].
  - intros ext Hin. unfold accepted. apply existsb_exists.
    exists ext. split; [exact Hin | apply endswith_app].
  - unfold accepted, endswith. rewrite rev_app_distr. reflexivity.
  - unfold accepted, endswith. rewrite rev_app_distr. reflexivity.
  - unfold accepted, endswith. rewrite rev_app_distr. reflexivity.
Qed.

Lemma dropEvent_app {rt : Runtime} (open_read : str -> result bytes)
    (before rest : list str) (self : MarcViewer) :
  dropEvent open_read (before ++ rest) self
  = match dropEvent open_read before self with
    | (Ok _, self1) => dropEvent open_read rest self1
    | (Raise e, self1) => (Raise e, self1)
    end.
Proof.
  revert self. induction before as [|file_path before IH]; intros self.
  - reflexivity.
  - cbn [app dropEvent]. unfold bindM, lift.
    destruct (accepted file_path).
    + destruct (load_marc_file (open_read file_path) self) as [[[]|e] self1];
        [apply IH | reflexivity].
    + apply IH.
Qed.

Lemma dropEvent_ignored {rt : Runtime} (open_read : str -> result bytes)
    (urls : list str) (self : MarcViewer) :
  forallb (fun file_path => negb (accepted file_path)) urls = true ->
  dropEvent open_read urls self = (Ok tt, self).
Proof.
  induction urls as [|file_path rest IH]; intros Hall; [reflexivity|].
  simpl in Hall. apply andb_true_iff in Hall as [Hpath Hrest].
  cbn [dropEvent]. unfold bindM.
  destruct (accepted file_path); [discriminate Hpath|].
  now apply IH.
Qed.

(** X16.  A drop in which no path has an accepted extension does
    nothing: no file is opened, nothing is raised, and the widgets
    (placeholder included) stay as they were. *)
Theorem drop_without_accepted_path_does_nothing {rt : Runtime}
    (open_read : str -> result bytes) (urls : list str) (self : MarcViewer) :
  forallb (fun file_path => negb (accepted file_path)) urls = true ->
  forall other_files : str -> result bytes,
    dropEvent open_read urls self = (Ok tt, self)
    /\ dropEvent other_files urls self = dropEvent open_read urls self.
Proof.
  intros Hall other_files.
  rewrite (dropEvent_ignored open_read urls self Hall).
  rewrite (dropEvent_ignored other_files urls self Hall).
  now split.
Qed.

Lemma drop_without_accepted_path_does_nothing_witness :
  forallb (fun file_path => negb (accepted file_path))
    [u "records.xml"; u "records.json"; []] = true
  /\ @dropEvent sample_rt sample_open_read
       [u "records.xml"; u "records.json"; []] init
     = (Ok tt, init).
Proof.
  split; [reflexivity|].
  apply (@drop_without_accepted_path_does_nothing sample_rt sample_open_read
           [u "records.xml"; u "records.json"; []] init eq_refl
           sample_open_read).
Defined.

(** X17.  When several files are dropped, the last accepted one is the
    one shown: if the loads before it returned, the drop ends as the
    load of that file alone would, and when it returns the text is the
    text of that file alone. *)
Theorem last_accepted_file_is_shown {rt : Runtime}
    (open_read : str -> result bytes) (before after : list str)
    (file_path : str) (self self1 : MarcViewer) :
  dropEvent open_read before self = (Ok tt, self1) ->
  accepted file_path = true ->
  forallb (fun other => negb (accepted other)) after = true ->
  dropEvent open_read (before ++ file_path :: after) self
  = load_marc_file (open_read file_path) self1
  /\ fst (dropEvent open_read (before ++ file_path :: after) self)
     = fst (load_marc_file (open_read file_path) self)
  /\ (fst (load_marc_file (open_read file_path) self) = Ok tt ->
      text_edit_text
        (snd (dropEvent open_read (before ++ file_path :: after) self))
      = text_edit_text (snd (load_marc_file (open_read file_path) self))).
Proof.
  intros Hbefore Hpath Hafter.
  assert (Hdrop : dropEvent open_read (before ++ file_path :: after) self
                  = load_marc_file (open_read file_path) self1).
  { rewrite dropEvent_app, Hbefore. cbn [dropEvent]. unfold bindM.
    rewrite Hpath.
    destruct (load_marc_file (open_read file_path) self1) as [[[]|e] self2];
      [now apply dropEvent_ignored | reflexivity]. }
  rewrite Hdrop, !load_marc_file_eq.
  split; [reflexivity|].
  destruct (produce (open_read file_path)) as [out|e]; [now split|].
  destruct (isinstance e [UnicodeDecodeError; IOError]); [now split|].
  split; [reflexivity | discriminate].
Qed.

Lemma last_accepted_file_is_shown_witness :
  @dropEvent sample_rt sample_open_read [u "blocks.mrc"] init
  = (Ok tt, snd (@load_marc_file sample_rt (Ok (two_blocks "???")) init))
  /\ accepted (u "scenario.txt") = true
  /\ forallb (fun other => negb (accepted other)) [u "readme.md"] = true
  /\ text_edit_text
       (snd (@dropEvent sample_rt sample_open_read
               ([u "blocks.mrc"] ++ u "scenario.txt" :: [u "readme.md"]) init))
     = text_edit_text (snd (@load_marc_file sample_rt (Ok json_input) init)).
Proof.
  split; [reflexivity|]. split; [reflexivity|]. split; [reflexivity|].
  apply (@last_accepted_file_is_shown sample_rt sample_open_read
           [u "blocks.mrc"] [u "readme.md"] (u "scenario.txt") init
           (snd (@load_marc_file sample_rt (Ok (two_blocks "???")) init))
           eq_refl eq_refl eq_refl).
  reflexivity.
Defined.

(** X18.  An exception that leaves the load of one dropped file leaves
    the whole drop: the accepted files after it are not loaded. *)
Theorem escaping_exception_stops_the_drop {rt : Runtime}
    (open_read : str -> result bytes) (before after : list str)
    (file_path : str) (e : exn) (self self1 self2 : MarcViewer) :
  dropEvent open_read before self = (Ok tt, self1) ->
  accepted file_path = true ->
  load_marc_file (open_read file_path) self1 = (Raise e, self2) ->
  dropEvent open_read (before ++ file_path :: after) self = (Raise e, self2).
Proof.
  intros Hbefore Hpath Hload.
  rewrite dropEvent_app, Hbefore. cbn [dropEvent]. unfold bindM.
  now rewrite Hpath, Hload.
Qed.

Lemma escaping_exception_stops_the_drop_witness :
  @dropEvent sample_rt sample_open_read [u "readme.md"] init = (Ok tt, init)
  /\ accepted (u "broken.dat") = true
  /\ @load_marc_file sample_rt (sample_open_read (u "broken.dat")) init
     = (Raise (Exn ValueError (u "Expecting value")), shown init)
  /\ @dropEvent sample_rt sample_open_read
       ([u "readme.md"] ++ u "broken.dat" :: [u "scenario.txt"]) init
     = (Raise (Exn ValueError (u "Expecting value")), shown init).
Proof.
  split; [reflexivity|]. split; [reflexivity|]. split; [reflexivity|].
  apply (@escaping_exception_stops_the_drop sample_rt sample_open_read
           [u "readme.md"] [u "scenario.txt"] (u "broken.dat")
           (Exn ValueError (u "Expecting value")) init init (shown init));
    reflexivity.
Defined.

(* ================================================================== *)
(** ** The mnemonic and JSON inputs of the specification, as the program
       treats them *)

Lemma two_blocks_is_mnemonic (second : string) :
  classify (two_blocks second) = Mnemonic.
Proof.
  unfold classify, is_marcxml, is_json, bytes_strip.
  change (two_blocks second)
    with ([] ++ x3d :: (b "001  12345" ++ [bLF; bLF] ++ b second)).
  destruct (strip_with_keeps_head bytes_isspace []
              (b "001  12345" ++ [bLF; bLF] ++ b second) x3d eq_refl eq_refl)
    as [tail Htail].
  rewrite Htail. reflexivity.
Qed.

(** Without a text reader, a content sent to the mnemonic decoder ends
    the call with the [TypeError] of rendering [None]. *)
Lemma mnemonic_call_without_text_reader {rt : Runtime}
    (content : bytes) (self : MarcViewer) :
  TextReader = None ->
  classify content = Mnemonic ->
  parse_mnemonic_records content
  = Ok (repeat PyNone
          (List.length (split_blank (str_strip (decode_utf8_replace content)))))
  /\ load_marc_file (Ok content) self = (Raise none_not_iterable, shown self).
Proof.
  intros Hreader Hclass.
  assert (Hrecords :
            parse_mnemonic_records content
            = Ok (repeat PyNone
                    (List.length
                       (split_blank (str_strip (decode_utf8_replace content)))))).
  { unfold parse_mnemonic_records, parse_mnemonic_records_fallback.
    rewrite Hreader. now rewrite fallback_loop. }
  split; [exact Hrecords|].
  rewrite load_marc_file_eq. unfold produce. cbn [bind].
  rewrite (decode_Mnemonic content Hclass), Hrecords. cbn [bind].
  pose proof (split_blank_length (str_strip (decode_utf8_replace content)))
    as Hlen.
  destruct (List.length (split_blank (str_strip (decode_utf8_replace content))))
    as [|n]; [lia | reflexivity].
Qed.

(** C2.  What the program does at the input of the claim.  The import
    of [TextReader] fails, so a Mnemonic input of two blocks separated
    by a blank line goes to the fallback decoder, whatever its second
    block is: every block becomes [None], rendering the first [None]
    raises a [TypeError] that no handler catches, and the call is left
    by it with no text set, neither the first record nor a marker for
    the second block. *)
Theorem two_blocks_abort_without_text_reader {rt : Runtime}
    (second : string) (self : MarcViewer) :
  TextReader = None ->
  classify (two_blocks second) = Mnemonic
  /\ (exists n, parse_mnemonic_records (two_blocks second)
                = Ok (PyNone :: repeat PyNone n))
  /\ load_marc_file (Ok (two_blocks second)) self
     = (Raise none_not_iterable, shown self)
  /\ text_edit_text (shown self) = text_edit_text self
  /\ isinstance none_not_iterable [KeyError; AttributeError] = false
  /\ isinstance none_not_iterable [UnicodeDecodeError; IOError] = false.
Proof.
  intros Hreader.
  pose proof (two_blocks_is_mnemonic second) as Hclass.
  destruct (mnemonic_call_without_text_reader (two_blocks second) self
              Hreader Hclass) as [Hrecords Hcall].
  split; [exact Hclass|]. split; [|now repeat split].
  pose proof (split_blank_length
                (str_strip (decode_utf8_replace (two_blocks second)))) as Hlen.
  rewrite Hrecords.
  destruct (List.length
              (split_blank (str_strip (decode_utf8_replace (two_blocks second)))))
    as [|n]; [lia|].
  now exists n.
Qed.

Lemma two_blocks_abort_without_text_reader_witness :
  @TextReader pymarc_rt = None
  /\ @parse_mnemonic_records pymarc_rt (two_blocks "???") = Ok [PyNone; PyNone]
  /\ @load_marc_file pymarc_rt (Ok (two_blocks "???")) init
     = (Raise none_not_iterable, shown init)
  /\ text_edit_text (shown init) = [].
Proof.
  split; [reflexivity|]. split; [reflexivity|].
  pose proof (@two_blocks_abort_without_text_reader pymarc_rt "???" init eq_refl)
    as (_ & _ & Hcall & Htext & _).
  split; [exact Hcall | exact Htext].
Defined.

(** C4.  What the program does at the input of the claim.  The buffer
    starts with [[], so it is handed, as bytes, to
    [parse_json_to_array]; when that call raises an exception that is
    neither a [UnicodeDecodeError] nor an [IOError] (with pymarc: the
    [TypeError] of putting bytes into a [StringIO]), the exception
    leaves [load_marc_file] and no text is set: the output does not
    begin with [Record ID: 12345]. *)
Theorem json_scenario_escapes {rt : Runtime} (e : exn) (self : MarcViewer) :
  parse_json_to_array json_input = Raise e ->
  isinstance e [UnicodeDecodeError; IOError] = false ->
  classify json_input = Json
  /\ decode json_input = parse_json_to_array json_input
  /\ load_marc_file (Ok json_input) self = (Raise e, shown self)
  /\ text_edit_text (shown self) = text_edit_text self.
Proof.
  intros Hraise He.
  split; [reflexivity|]. split; [reflexivity|]. split; [|reflexivity].
  rewrite load_marc_file_eq. unfold produce, decode. cbn [bind].
  change (is_marcxml json_input) with false.
  change (is_json json_input) with true. cbn iota.
  rewrite Hraise. cbn [bind]. now rewrite He.
Qed.

Lemma json_scenario_escapes_witness :
  @parse_json_to_array pymarc_rt json_input
  = Raise (Exn TypeError (u "initial_value must be str or None, not bytes"))
  /\ isinstance (Exn TypeError (u "initial_value must be str or None, not bytes"))
       [UnicodeDecodeError; IOError] = false
  /\ @load_marc_file pymarc_rt (Ok json_input) init
     = (Raise (Exn TypeError (u "initial_value must be str or None, not bytes")),
        shown init)
  /\ text_edit_text (shown init) = [].
Proof.
  split; [reflexivity|]. split; [reflexivity|].
  pose proof (@json_scenario_escapes pymarc_rt
                (Exn TypeError (u "initial_value must be str or None, not bytes"))
                init eq_refl eq_refl) as (_ & _ & Hcall & Htext).
  split; [exact Hcall | exact Htext].
Defined.

(* ================================================================== *)
(** ** Rendering leaves the objects alone *)

Lemma parse_record_any_runtime (rt1 rt2 : Runtime) (record : pyobject) :
  @parse_record rt1 record = @parse_record rt2 record.
Proof.
  destruct record as [|r]; [reflexivity|].
  now rewrite !parse_record_PyRecord.
Qed.

(** Run in a world, [parse_record] gives what it gives on the object
    its argument refers to, and hands the world back as it got it. *)
Lemma parse_record_st_run {rt : Runtime} (record : pyref) (w : world) :
  parse_record_st record w = (parse_record (deref w record), w).
Proof.
  unfold parse_record_st, parse_record, try_exceptS, bindS, read, retS.
  destruct record as [|address]; [reflexivity|].
  cbn [deref record_contains record_getitem get_fields bind].
  destruct (existsb (has_tag (u "001")) (fields (objects w address))).
  - destruct (find (has_tag (u "001")) (fields (objects w address)));
      reflexivity.
  - reflexivity.
Qed.

(** Changing a record in place or setting the text does leave another
    world: these are the effects [parse_record] is free of. *)
Lemma changes_leave_another_world :
  snd (st_add_field (RefRecord 0) title_field sample_world) <> sample_world
  /\ snd (st_setText (u "text") sample_world) <> sample_world.
Proof.
  split; intros H.
  - apply (f_equal (fun w => List.length (fields (objects w 0)))) in H.
    discriminate H.
  - apply (f_equal (fun w => text_edit_text (window w))) in H.
    discriminate H.
Qed.

(** C8.  Rendering is deterministic and free of side effects.  Two
    invocations on equal records (two references, in whatever worlds and
    under whatever runtimes, that stand for equal objects) give the same
    result, text or exception; and an invocation hands back the world
    it got: every record object, the rendered one included, and the
    widgets are as they were.  So a second invocation right after the
    first gives the same result again. *)
Theorem parse_record_is_read_only (rt1 rt2 : Runtime) (w1 w2 : world)
    (record1 record2 : pyref) :
  deref w1 record1 = deref w2 record2 ->
  fst (@parse_record_st rt1 record1 w1) = fst (@parse_record_st rt2 record2 w2)
  /\ snd (@parse_record_st rt1 record1 w1) = w1
  /\ deref (snd (@parse_record_st rt1 record1 w1)) record1 = deref w1 record1
  /\ window (snd (@parse_record_st rt1 record1 w1)) = window w1
  /\ @parse_record_st rt1 record1 (snd (@parse_record_st rt1 record1 w1))
     = @parse_record_st rt1 record1 w1.
Proof.
  intros Hequal. rewrite !parse_record_st_run. cbn [fst snd].
  split; [|now repeat split].
  rewrite Hequal. apply parse_record_any_runtime.
Qed.

Lemma parse_record_is_read_only_witness :
  deref sample_world (RefRecord 0) = deref other_world (RefRecord 7)
  /\ fst (@parse_record_st sample_rt (RefRecord 0) sample_world)
     = fst (@parse_record_st pymarc_rt (RefRecord 7) other_world)
  /\ snd (@parse_record_st sample_rt (RefRecord 0) sample_world) = sample_world.
Proof.
  split; [reflexivity|].
  pose proof (@parse_record_is_read_only sample_rt pymarc_rt sample_world
                other_world (RefRecord 0) (RefRecord 7) eq_refl)
    as (Hsame & Hworld & _).
  split; [exact Hsame | exact Hworld].
Defined.
